(** * Shallow embedding of pdfium-render's form and local-destination wrappers

    Sources embedded: [src/src/form.rs] ([PdfFormType], [PdfFormFieldType],
    [PdfForm::from_pdfium], [PdfForm::form_type], [Drop for PdfForm]) and
    [src/src/action_local_destination.rs] ([PdfActionLocalDestination::destination]).

    Native handles are pointers; they are modelled as [Z] addresses with [0]
    standing for the null pointer.  Calls into the native engine go through a
    bindings object ([PdfiumLibraryBindings]); it is modelled as a record of the
    engine's answers, and every call is recorded in an event trace so that the
    order and number of native calls (init, exit, allocation, release) can be
    inspected. *)

From Stdlib Require Import ZArith List Bool Lia.
Import ListNotations.
Open Scope Z_scope.

(** ** Constants of the generated bindings (pdfium's [fpdf_formfill.h]) *)

Definition FORMTYPE_NONE : Z := 0.
Definition FORMTYPE_ACRO_FORM : Z := 1.
Definition FORMTYPE_XFA_FULL : Z := 2.
Definition FORMTYPE_XFA_FOREGROUND : Z := 3.

Definition FPDF_FORMFIELD_UNKNOWN : Z := 0.
Definition FPDF_FORMFIELD_PUSHBUTTON : Z := 1.
Definition FPDF_FORMFIELD_CHECKBOX : Z := 2.
Definition FPDF_FORMFIELD_RADIOBUTTON : Z := 3.
Definition FPDF_FORMFIELD_COMBOBOX : Z := 4.
Definition FPDF_FORMFIELD_LISTBOX : Z := 5.
Definition FPDF_FORMFIELD_TEXTFIELD : Z := 6.
Definition FPDF_FORMFIELD_SIGNATURE : Z := 7.

(** Rust's [x as u32] on an [i32]: reduction modulo 2^32. *)
Definition as_u32 (x : Z) : Z := x mod 2 ^ 32.

(** ** Errors (the variants of [crate::error] that these sources use) *)

Inductive PdfiumInternalError :=
| Unknown
| FileError
| FormatError
| PasswordError
| SecurityError
| PageError.

Inductive PdfiumError :=
| UnknownFormType
| UnknownFormFieldType
| PdfiumLibraryInternalError (e : PdfiumInternalError).

(** Rust's [Result]. *)
Inductive result (A E : Type) :=
| Ok (a : A)
| Err (e : E).
Arguments Ok {A E} a.
Arguments Err {A E} e.

(** ** [PdfFormType] *)

Inductive PdfFormType :=
| FT_None
| Acrobat
| XfaFull
| XfaForeground.

Definition PdfFormType_eqb (a b : PdfFormType) : bool :=
  match a, b with
  | FT_None, FT_None | Acrobat, Acrobat | XfaFull, XfaFull
  | XfaForeground, XfaForeground => true
  | _, _ => false
  end.

(** [PdfFormType::from_pdfium]: the match arms are tried in order. *)
Definition PdfFormType_from_pdfium (form_type : Z) : result PdfFormType PdfiumError :=
  if form_type =? FORMTYPE_NONE then Ok FT_None
  else if form_type =? FORMTYPE_ACRO_FORM then Ok Acrobat
  else if form_type =? FORMTYPE_XFA_FULL then Ok XfaFull
  else if form_type =? FORMTYPE_XFA_FOREGROUND then Ok XfaForeground
  else Err UnknownFormType.

(** [PdfFormType::as_pdfium]. *)
Definition PdfFormType_as_pdfium (t : PdfFormType) : Z :=
  match t with
  | FT_None => FORMTYPE_NONE
  | Acrobat => FORMTYPE_ACRO_FORM
  | XfaFull => FORMTYPE_XFA_FULL
  | XfaForeground => FORMTYPE_XFA_FOREGROUND
  end.

(** ** [PdfFormFieldType] *)

Inductive PdfFormFieldType :=
| FF_Unknown
| PushButton
| Checkbox
| RadioButton
| ComboBox
| ListBox
| TextField
| Signature.

(** [PdfFormFieldType::from_pdfium]. *)
Definition PdfFormFieldType_from_pdfium (form_field_type : Z)
  : result PdfFormFieldType PdfiumError :=
  if form_field_type =? FPDF_FORMFIELD_UNKNOWN then Ok FF_Unknown
  else if form_field_type =? FPDF_FORMFIELD_PUSHBUTTON then Ok PushButton
  else if form_field_type =? FPDF_FORMFIELD_CHECKBOX then Ok Checkbox
  else if form_field_type =? FPDF_FORMFIELD_RADIOBUTTON then Ok RadioButton
  else if form_field_type =? FPDF_FORMFIELD_COMBOBOX then Ok ComboBox
  else if form_field_type =? FPDF_FORMFIELD_LISTBOX then Ok ListBox
  else if form_field_type =? FPDF_FORMFIELD_TEXTFIELD then Ok TextField
  else if form_field_type =? FPDF_FORMFIELD_SIGNATURE then Ok Signature
  else Err UnknownFormFieldType.

(** [PdfFormFieldType::as_pdfium]. *)
Definition PdfFormFieldType_as_pdfium (t : PdfFormFieldType) : Z :=
  match t with
  | FF_Unknown => FPDF_FORMFIELD_UNKNOWN
  | PushButton => FPDF_FORMFIELD_PUSHBUTTON
  | Checkbox => FPDF_FORMFIELD_CHECKBOX
  | RadioButton => FPDF_FORMFIELD_RADIOBUTTON
  | ComboBox => FPDF_FORMFIELD_COMBOBOX
  | ListBox => FPDF_FORMFIELD_LISTBOX
  | TextField => FPDF_FORMFIELD_TEXTFIELD
  | Signature => FPDF_FORMFIELD_SIGNATURE
  end.

(** ** The native engine, seen through [PdfiumLibraryBindings]

    Each field gives the engine's answer to one binding call. *)

Record PdfiumLibraryBindings := {
  (** [FPDFDOC_InitFormFillEnvironment(document, form_fill_info)] *)
  FPDFDOC_InitFormFillEnvironment : Z -> Z -> Z;
  (** [FPDF_GetFormType(document)], a C [int] *)
  FPDF_GetFormType : Z -> Z;
  (** [FPDFAction_GetDest(document, action)] *)
  FPDFAction_GetDest : Z -> Z -> Z;
  (** [get_pdfium_last_error()] *)
  get_pdfium_last_error : option PdfiumInternalError
}.

Definition is_null (h : Z) : bool := h =? 0.

(** Observable events: native calls and the allocation and release of the
    boxed [FPDF_FORMFILLINFO] block. *)
Inductive Event :=
| EvAllocFormFillInfo (addr : Z)
| EvFreeFormFillInfo (addr : Z)
| EvInitFormFill (document info handle : Z)
| EvExitFormFill (handle : Z)
| EvGetFormType (document : Z)
| EvGetLastError
| EvGetDest (document action : Z).

(** ** A trace monad with Rust panics *)

Inductive Outcome (A : Type) :=
| Done (a : A)
| Panicked.
Arguments Done {A} a.
Arguments Panicked {A}.

Definition M (A : Type) : Type := list Event -> Outcome A * list Event.

Definition ret {A} (a : A) : M A := fun tr => (Done a, tr).

Definition bind {A B} (m : M A) (k : A -> M B) : M B :=
  fun tr =>
    match m tr with
    | (Done a, tr') => k a tr'
    | (Panicked, tr') => (Panicked, tr')
    end.

Notation "x <- m ;; k" := (bind m (fun x => k))
  (at level 61, m at next level, right associativity).
Notation "m ;;; k" := (bind m (fun _ => k))
  (at level 61, right associativity).

Definition emit (e : Event) : M unit := fun tr => (Done tt, tr ++ [e]).

Definition panic {A} : M A := fun tr => (Panicked, tr).

(** Unwinding: when [m] panics, the live locals are dropped by [cleanup]
    before the panic propagates. *)
Definition on_unwind {A} (m : M A) (cleanup : M unit) : M A :=
  fun tr =>
    match m tr with
    | (Done a, tr') => (Done a, tr')
    | (Panicked, tr') => (Panicked, snd (cleanup tr'))
    end.

(** [Result::unwrap]. *)
Definition unwrap {A E} (r : result A E) : M A :=
  match r with
  | Ok a => ret a
  | Err _ => panic
  end.

(** Binding calls, each recorded in the trace. *)
Definition call_InitFormFillEnvironment (b : PdfiumLibraryBindings) (doc info : Z) : M Z :=
  let h := FPDFDOC_InitFormFillEnvironment b doc info in
  emit (EvInitFormFill doc info h) ;;; ret h.

Definition call_ExitFormFillEnvironment (h : Z) : M unit :=
  emit (EvExitFormFill h).

Definition call_GetFormType (b : PdfiumLibraryBindings) (doc : Z) : M Z :=
  emit (EvGetFormType doc) ;;; ret (FPDF_GetFormType b doc).

Definition call_get_pdfium_last_error (b : PdfiumLibraryBindings)
  : M (option PdfiumInternalError) :=
  emit EvGetLastError ;;; ret (get_pdfium_last_error b).

Definition call_GetDest (b : PdfiumLibraryBindings) (doc action : Z) : M Z :=
  emit (EvGetDest doc action) ;;; ret (FPDFAction_GetDest b doc action).

(** [Box::pin(FPDF_FORMFILLINFO { .. })]: the allocator hands out [addr].
    Dropping the [Pin<Box<_>>] frees it. *)
Definition box_pin_form_fill_info (addr : Z) : M Z :=
  emit (EvAllocFormFillInfo addr) ;;; ret addr.

Definition drop_form_fill_info (addr : Z) : M unit :=
  emit (EvFreeFormFillInfo addr).

(** ** [PdfForm] *)

Record PdfForm := {
  form_handle : Z;
  document_handle : Z;
  form_fill_info : Z;  (** address of the pinned box *)
  bindings : PdfiumLibraryBindings
}.

(** [PdfForm::form_type]. *)
Definition form_type (self : PdfForm) : M PdfFormType :=
  code <- call_GetFormType (bindings self) (document_handle self) ;;
  unwrap (PdfFormType_from_pdfium (as_u32 code)).

(** Dropping a [PdfForm]: first [Drop::drop], then the drop glue of the
    fields in declaration order; [form_handle], [document_handle] and
    [bindings] own nothing, [form_fill_info] frees its box. *)
Definition drop_PdfForm (self : PdfForm) : M unit :=
  call_ExitFormFillEnvironment (form_handle self) ;;;
  drop_form_fill_info (form_fill_info self).

(** [PdfForm::from_pdfium]; [addr] is the address the allocator returns for
    the boxed [FPDF_FORMFILLINFO]. *)
Definition PdfForm_from_pdfium (document_handle : Z) (b : PdfiumLibraryBindings)
  (addr : Z) : M (option PdfForm) :=
  form_fill_info <- box_pin_form_fill_info addr ;;
  form_handle <- call_InitFormFillEnvironment b document_handle form_fill_info ;;
  ok <- (if negb (is_null form_handle)
         then e <- call_get_pdfium_last_error b ;;
              ret (match e with None => true | Some _ => false end)
         else ret false) ;;
  if ok then
    let form := {| form_handle := form_handle;
                   document_handle := document_handle;
                   form_fill_info := form_fill_info;
                   bindings := b |} in
    t <- on_unwind (form_type form) (drop_PdfForm form) ;;
    if negb (PdfFormType_eqb t FT_None) then ret (Some form)
    else drop_PdfForm form ;;; ret None
  else
    (* [form_fill_info] was not moved: it is dropped at the end of the function *)
    drop_form_fill_info form_fill_info ;;; ret None.

(** A caller that opens the form environment and later drops what it got. *)
Definition open_and_drop_form (document_handle : Z) (b : PdfiumLibraryBindings)
  (addr : Z) : M unit :=
  r <- PdfForm_from_pdfium document_handle b addr ;;
  match r with
  | Some form => drop_PdfForm form
  | None => ret tt
  end.

(** ** [PdfActionLocalDestination] *)

Record PdfDestination := {
  destination_handle : Z;
  destination_bindings : PdfiumLibraryBindings
}.

(** [PdfDestination::from_pdfium]. *)
Definition PdfDestination_from_pdfium (handle : Z) (b : PdfiumLibraryBindings)
  : PdfDestination :=
  {| destination_handle := handle; destination_bindings := b |}.

Record PdfActionLocalDestination := {
  action_handle : Z;
  document : Z;
  action_bindings : PdfiumLibraryBindings
}.

(** [PdfActionLocalDestination::destination]. *)
Definition destination (self : PdfActionLocalDestination)
  : M (result PdfDestination PdfiumError) :=
  handle <- call_GetDest (action_bindings self) (document self) (action_handle self) ;;
  if is_null handle then
    le <- call_get_pdfium_last_error (action_bindings self) ;;
    match le with
    | Some error => ret (Err (PdfiumLibraryInternalError error))
    | None => ret (Err (PdfiumLibraryInternalError Unknown))
    end
  else ret (Ok (PdfDestination_from_pdfium handle (action_bindings self))).

(** ** Concrete engines used by the examples below *)

(** An engine for one document [7] whose form-fill handle is [h], whose
    pending last error is [err] and whose form type code is [ty]. *)
Definition test_engine (h : Z) (err : option PdfiumInternalError) (ty : Z)
  : PdfiumLibraryBindings :=
  {| FPDFDOC_InitFormFillEnvironment := fun _ _ => h;
     FPDF_GetFormType := fun _ => ty;
     FPDFAction_GetDest := fun _ _ => h;
     get_pdfium_last_error := err |}.

(** The four form type codes [PdfFormType::from_pdfium] recognises. *)
Definition FORMTYPE_CODES : list Z :=
  [FORMTYPE_NONE; FORMTYPE_ACRO_FORM; FORMTYPE_XFA_FULL; FORMTYPE_XFA_FOREGROUND].

(** Number of [FPDFDOC_ExitFormFillEnvironment] calls on handle [h] in a trace. *)
Definition exit_count (h : Z) (tr : list Event) : nat :=
  length (filter (fun e => match e with EvExitFormFill h' => h' =? h | _ => false end) tr).

(** Number of releases of the pinned block at [addr] in a trace. *)
Definition free_count (addr : Z) (tr : list Event) : nat :=
  length (filter (fun e => match e with EvFreeFormFillInfo a => a =? addr | _ => false end) tr).

(** Number of [FPDFDOC_InitFormFillEnvironment] calls in a trace. *)
Definition init_count (tr : list Event) : nat :=
  length (filter (fun e => match e with EvInitFormFill _ _ _ => true | _ => false end) tr).

(** The form field type codes [PdfFormFieldType::from_pdfium] recognises. *)
Definition FORMFIELD_CODES : list Z :=
  [FPDF_FORMFIELD_UNKNOWN; FPDF_FORMFIELD_PUSHBUTTON; FPDF_FORMFIELD_CHECKBOX;
   FPDF_FORMFIELD_RADIOBUTTON; FPDF_FORMFIELD_COMBOBOX; FPDF_FORMFIELD_LISTBOX;
   FPDF_FORMFIELD_TEXTFIELD; FPDF_FORMFIELD_SIGNATURE].

(** ========================================================================= *)
(** * Theorems *)

Example from_pdfium_acro : PdfFormType_from_pdfium 1 = Ok Acrobat.
Proof. reflexivity. Qed.

Example from_pdfium_count : PdfFormType_from_pdfium 4 = Err UnknownFormType.
Proof. reflexivity. Qed.

Example run_acro :
  open_and_drop_form 7 (test_engine 4096 None 1) 512 [] =
  (Done tt, [EvAllocFormFillInfo 512; EvInitFormFill 7 512 4096; EvGetLastError;
             EvGetFormType 7; EvExitFormFill 4096; EvFreeFormFillInfo 512]).
Proof. reflexivity. Qed.

Example run_stale_error :
  open_and_drop_form 7 (test_engine 4096 (Some PasswordError) 1) 512 [] =
  (Done tt, [EvAllocFormFillInfo 512; EvInitFormFill 7 512 4096; EvGetLastError;
             EvFreeFormFillInfo 512]).
Proof. reflexivity. Qed.

Ltac run_M :=
  cbv [PdfForm_from_pdfium open_and_drop_form destination form_type drop_PdfForm
       box_pin_form_fill_info drop_form_fill_info call_InitFormFillEnvironment
       call_ExitFormFillEnvironment call_GetFormType call_get_pdfium_last_error
       call_GetDest bind ret emit panic on_unwind unwrap is_null fst snd].

Ltac split_zeqb :=
  repeat match goal with
         | |- context [?x =? ?y] => destruct (Z.eqb_spec x y)
         | H : context [?x =? ?y] |- _ => destruct (Z.eqb_spec x y)
         end.

Lemma PdfFormType_from_pdfium_cases (c : Z) :
  (c = 0 /\ PdfFormType_from_pdfium c = Ok FT_None) \/
  (c = 1 /\ PdfFormType_from_pdfium c = Ok Acrobat) \/
  (c = 2 /\ PdfFormType_from_pdfium c = Ok XfaFull) \/
  (c = 3 /\ PdfFormType_from_pdfium c = Ok XfaForeground) \/
  (~ In c FORMTYPE_CODES /\ PdfFormType_from_pdfium c = Err UnknownFormType).
Proof.
  unfold PdfFormType_from_pdfium, FORMTYPE_CODES, FORMTYPE_NONE, FORMTYPE_ACRO_FORM,
    FORMTYPE_XFA_FULL, FORMTYPE_XFA_FOREGROUND.
  split_zeqb; subst; simpl; intuition lia.
Qed.

(** ** C8 *)

(** C8: [PdfFormType::from_pdfium] returns [Ok t] exactly when the code is
    [t.as_pdfium()], i.e. one of the four recognised constants; every other
    code gives [Err(PdfiumError::UnknownFormType)], and that error is distinct
    from every native-call-failure variant [PdfiumLibraryInternalError _]. *)
Theorem PdfFormType_from_pdfium_decodes :
  (forall c t, PdfFormType_from_pdfium c = Ok t <-> PdfFormType_as_pdfium t = c) /\
  (forall c, In c FORMTYPE_CODES <-> exists t, PdfFormType_from_pdfium c = Ok t) /\
  (forall c e, PdfFormType_from_pdfium c = Err e <->
               (~ In c FORMTYPE_CODES /\ e = UnknownFormType)) /\
  (forall e, UnknownFormType <> PdfiumLibraryInternalError e).
Proof.
  split; [|split; [|split]].
  - intros c t.
    destruct (PdfFormType_from_pdfium_cases c)
      as [[-> ->]|[[-> ->]|[[-> ->]|[[-> ->]|[Hn ->]]]]];
      destruct t; unfold PdfFormType_as_pdfium, FORMTYPE_NONE, FORMTYPE_ACRO_FORM,
        FORMTYPE_XFA_FULL, FORMTYPE_XFA_FOREGROUND;
      split; intro H; try congruence; try lia.
    all: exfalso; apply Hn; rewrite <- H; cbv; tauto.
  - intro c.
    destruct (PdfFormType_from_pdfium_cases c)
      as [[-> ->]|[[-> ->]|[[-> ->]|[[-> ->]|[Hn ->]]]]];
      split; intro H; try (eexists; reflexivity); try (cbv; tauto).
    all: try contradiction.
    all: destruct H as [t Ht]; discriminate.
  - intros c e.
    destruct (PdfFormType_from_pdfium_cases c)
      as [[-> ->]|[[-> ->]|[[-> ->]|[[-> ->]|[Hn ->]]]]];
      split; intro H; try discriminate.
    all: try (exfalso; apply (proj1 H); cbv; tauto).
    + injection H as <-; auto.
    + destruct H as [_ ->]; reflexivity.
  - intros e H; discriminate.
Qed.

(** ** C10 *)

(** C10: the enum conversions round-trip: [PdfFormType::from_pdfium(t.as_pdfium())]
    is [Ok(t)] for every form type and [PdfFormFieldType::from_pdfium(f.as_pdfium())]
    is [Ok(f)] for every form field type. *)
Theorem form_enums_roundtrip :
  (forall t, PdfFormType_from_pdfium (PdfFormType_as_pdfium t) = Ok t) /\
  (forall f, PdfFormFieldType_from_pdfium (PdfFormFieldType_as_pdfium f) = Ok f).
Proof.
  split; intro x; destruct x; reflexivity.
Qed.

(** ** C1 *)

(** C1: [PdfActionLocalDestination::destination] returns [Ok] (wrapping the
    handle) exactly when [FPDFAction_GetDest] returns a non-null handle; on a
    null handle it returns [PdfiumLibraryInternalError(cause)] when the
    last-error query yields [cause], and [PdfiumLibraryInternalError(Unknown)]
    when the query reports no error.  It never panics. *)
Theorem destination_classifies_native_result :
  forall (a : PdfActionLocalDestination) (tr : list Event),
    let h := FPDFAction_GetDest (action_bindings a) (document a) (action_handle a) in
    ((exists d, fst (destination a tr) = Done (Ok d)) <-> h <> 0) /\
    (h <> 0 ->
       fst (destination a tr) = Done (Ok (PdfDestination_from_pdfium h (action_bindings a)))) /\
    (forall cause, h = 0 -> get_pdfium_last_error (action_bindings a) = Some cause ->
       fst (destination a tr) = Done (Err (PdfiumLibraryInternalError cause))) /\
    (h = 0 -> get_pdfium_last_error (action_bindings a) = None ->
       fst (destination a tr) = Done (Err (PdfiumLibraryInternalError Unknown))) /\
    fst (destination a tr) <> Panicked.
Proof.
  intros a tr h.
  run_M; fold h.
  destruct (Z.eqb_spec h 0) as [Hz|Hnz];
    destruct (get_pdfium_last_error (action_bindings a)) as [e|] eqn:He.
  all: repeat split; intros; try congruence.
  all: try (destruct H as [d Hd]; discriminate).
  all: eexists; reflexivity.
Qed.

(** The C1 theorem at a null destination with a pending file error. *)
Lemma destination_classifies_native_result_witness :
  let a := {| action_handle := 3; document := 7;
              action_bindings := test_engine 0 (Some FileError) 0 |} in
  fst (destination a []) = Done (Err (PdfiumLibraryInternalError FileError)).
Proof.
  intro a.
  destruct (destination_classifies_native_result a []) as (_ & _ & Hc & _ & _).
  apply Hc; reflexivity.
Defined.

(** ** C2 *)

(** C2: when the form-fill environment initialises (non-null handle, no
    pending last error) and the engine reports the form type code
    [FORMTYPE_NONE], [PdfForm::from_pdfium] returns [None] (and does not panic). *)
Theorem from_pdfium_empty_form_is_none :
  forall doc b addr tr,
    FPDFDOC_InitFormFillEnvironment b doc addr <> 0 ->
    get_pdfium_last_error b = None ->
    as_u32 (FPDF_GetFormType b doc) = FORMTYPE_NONE ->
    fst (PdfForm_from_pdfium doc b addr tr) = Done None.
Proof.
  intros doc b addr tr Hh He Ht.
  run_M.
  destruct (Z.eqb_spec (FPDFDOC_InitFormFillEnvironment b doc addr) 0); [contradiction|].
  simpl. rewrite He, Ht. reflexivity.
Qed.

Lemma from_pdfium_empty_form_is_none_witness :
  fst (PdfForm_from_pdfium 7 (test_engine 4096 None 0) 512 []) = Done None.
Proof.
  apply from_pdfium_empty_form_is_none; [discriminate | reflexivity | reflexivity].
Defined.

(** ** C3 *)

(** C3 (as stated, refuted): on document [7], an empty form (handle [4096],
    no error, type [FORMTYPE_NONE]), a null form handle and a non-null handle
    with a pending password error all give the same result, [None]. *)
Lemma from_pdfium_empty_and_failed_agree :
  fst (PdfForm_from_pdfium 7 (test_engine 4096 None 0) 512 []) = Done None /\
  fst (PdfForm_from_pdfium 7 (test_engine 0 None 0) 512 []) = Done None /\
  fst (PdfForm_from_pdfium 7 (test_engine 4096 (Some PasswordError) 1) 512 []) = Done None.
Proof. repeat split; reflexivity. Qed.

(** C3 (amended): [PdfForm::from_pdfium] returns [None] both when the document's
    form is empty (type [FORMTYPE_NONE]) and when initialisation fails (null
    form handle, or a pending last error); its result does not tell the two apart. *)
Theorem from_pdfium_none_on_empty_or_failure :
  forall doc b addr tr,
    (FPDFDOC_InitFormFillEnvironment b doc addr = 0 \/
     get_pdfium_last_error b <> None \/
     as_u32 (FPDF_GetFormType b doc) = FORMTYPE_NONE) ->
    fst (PdfForm_from_pdfium doc b addr tr) = Done None.
Proof.
  intros doc b addr tr H.
  run_M.
  destruct (Z.eqb_spec (FPDFDOC_InitFormFillEnvironment b doc addr) 0) as [Hz|Hnz];
    [reflexivity|].
  simpl.
  destruct (get_pdfium_last_error b) as [e|] eqn:He; [reflexivity|].
  destruct H as [H|[H|H]]; [contradiction|congruence|].
  rewrite H. reflexivity.
Qed.

Lemma from_pdfium_none_on_empty_or_failure_witness :
  fst (PdfForm_from_pdfium 7 (test_engine 0 None 1) 512 []) = Done None.
Proof.
  apply from_pdfium_none_on_empty_or_failure. left; reflexivity.
Defined.

(** ** C4 *)

(** C4: when initialisation gives a non-null handle, no error is pending and
    the engine reports a recognised form type other than [FORMTYPE_NONE],
    [PdfForm::from_pdfium] returns [Some(form)], and [form.form_type()] then
    returns a variant other than [PdfFormType::None]. *)
Theorem from_pdfium_nonempty_form :
  forall doc b addr tr,
    FPDFDOC_InitFormFillEnvironment b doc addr <> 0 ->
    get_pdfium_last_error b = None ->
    In (as_u32 (FPDF_GetFormType b doc))
       [FORMTYPE_ACRO_FORM; FORMTYPE_XFA_FULL; FORMTYPE_XFA_FOREGROUND] ->
    exists form,
      fst (PdfForm_from_pdfium doc b addr tr) = Done (Some form) /\
      forall tr', exists t, fst (form_type form tr') = Done t /\ t <> FT_None.
Proof.
  intros doc b addr tr Hh He Ht.
  assert (Hdec : exists t, PdfFormType_from_pdfium (as_u32 (FPDF_GetFormType b doc)) = Ok t
                           /\ t <> FT_None).
  { destruct Ht as [H|[H|[H|[]]]]; rewrite <- H; eexists; (split; [reflexivity|discriminate]). }
  destruct Hdec as [t [Hdec Hnone]].
  exists {| form_handle := FPDFDOC_InitFormFillEnvironment b doc addr;
            document_handle := doc; form_fill_info := addr; bindings := b |}.
  split.
  - run_M.
    destruct (Z.eqb_spec (FPDFDOC_InitFormFillEnvironment b doc addr) 0); [contradiction|].
    simpl. rewrite He. simpl. rewrite Hdec.
    destruct t; [contradiction| reflexivity | reflexivity | reflexivity].
  - intro tr'. exists t. split; [|assumption].
    run_M. simpl. rewrite Hdec. reflexivity.
Qed.

Lemma from_pdfium_nonempty_form_witness :
  exists form,
    fst (PdfForm_from_pdfium 7 (test_engine 4096 None 2) 512 []) = Done (Some form) /\
    forall tr', exists t, fst (form_type form tr') = Done t /\ t <> FT_None.
Proof.
  apply from_pdfium_nonempty_form; [discriminate | reflexivity | simpl; tauto].
Defined.

(** ** C5 *)

(** C5 (failing input): on document [7], [FPDFDOC_InitFormFillEnvironment]
    returns the non-null handle [4096] while a stale [PasswordError] is
    pending.  [PdfForm::from_pdfium] takes its "no form" branch: the handle is
    never passed to [FPDFDOC_ExitFormFillEnvironment], and the pinned
    [FPDF_FORMFILLINFO] block it references is freed. *)
Lemma from_pdfium_pending_error_never_exits :
  let b := test_engine 4096 (Some PasswordError) 1 in
  FPDFDOC_InitFormFillEnvironment b 7 512 = 4096 /\
  fst (open_and_drop_form 7 b 512 []) = Done tt /\
  exit_count 4096 (snd (open_and_drop_form 7 b 512 [])) = 0%nat /\
  In (EvFreeFormFillInfo 512) (snd (open_and_drop_form 7 b 512 [])).
Proof. cbv; intuition. Qed.

(** ** C6 *)

(** C6: a [PdfForm] is destroyed by [Drop::drop] ([FPDFDOC_ExitFormFillEnvironment])
    followed by the drop of its fields, the pinned block last.  Over the whole
    life of a form environment that [PdfForm::from_pdfium] wraps (non-null
    handle, no pending error) and whose wrapper is then dropped -- whether it
    is returned, discarded as empty, or dropped while unwinding -- the exit
    call on the handle comes before the block is freed, and the block is freed
    nowhere before it. *)
Theorem PdfForm_exit_before_free :
  forall doc b addr,
    FPDFDOC_InitFormFillEnvironment b doc addr <> 0 ->
    get_pdfium_last_error b = None ->
    exists l1 l2 l3,
      snd (open_and_drop_form doc b addr []) =
        l1 ++ EvExitFormFill (FPDFDOC_InitFormFillEnvironment b doc addr)
           :: l2 ++ EvFreeFormFillInfo addr :: l3 /\
      ~ In (EvFreeFormFillInfo addr) l1 /\
      ~ In (EvFreeFormFillInfo addr) l2.
Proof.
  intros doc b addr Hh He.
  exists [EvAllocFormFillInfo addr;
          EvInitFormFill doc addr (FPDFDOC_InitFormFillEnvironment b doc addr);
          EvGetLastError; EvGetFormType doc], [], [].
  split; [|split; simpl; [intuition discriminate | tauto]].
  run_M.
  destruct (Z.eqb_spec (FPDFDOC_InitFormFillEnvironment b doc addr) 0); [contradiction|].
  simpl. rewrite He. simpl.
  destruct (PdfFormType_from_pdfium_cases (as_u32 (FPDF_GetFormType b doc)))
    as [[_ ->]|[[_ ->]|[[_ ->]|[[_ ->]|[_ ->]]]]]; reflexivity.
Qed.

Lemma PdfForm_exit_before_free_witness :
  exists l1 l2 l3,
    snd (open_and_drop_form 7 (test_engine 4096 None 3) 512 []) =
      l1 ++ EvExitFormFill 4096 :: l2 ++ EvFreeFormFillInfo 512 :: l3 /\
    ~ In (EvFreeFormFillInfo 512) l1 /\
    ~ In (EvFreeFormFillInfo 512) l2.
Proof.
  exact (PdfForm_exit_before_free 7 (test_engine 4096 None 3) 512
           ltac:(discriminate) eq_refl).
Defined.

(** ** C7 *)

(** C7 (as stated, refuted): a form whose engine reports the form type code
    [4] ([FORMTYPE_COUNT]); [PdfForm::form_type] unwraps the decoding error and
    panics instead of returning it to the caller. *)
Lemma form_type_panics_on_code_4 :
  let form := {| form_handle := 4096; document_handle := 7; form_fill_info := 512;
                 bindings := test_engine 4096 None 4 |} in
  fst (form_type form []) = Panicked.
Proof. reflexivity. Qed.

(** C7 (amended): [PdfForm::form_type] returns the decoded variant when the
    engine's code is one of the four recognised constants, and panics (via
    [unwrap]) for every other code; it never returns an error value. *)
Theorem form_type_returns_or_panics :
  forall (form : PdfForm) (tr : list Event),
    let c := as_u32 (FPDF_GetFormType (bindings form) (document_handle form)) in
    (In c FORMTYPE_CODES /\
       exists t, fst (form_type form tr) = Done t /\ PdfFormType_as_pdfium t = c) \/
    (~ In c FORMTYPE_CODES /\ fst (form_type form tr) = Panicked).
Proof.
  intros form tr c.
  run_M. fold c.
  destruct (PdfFormType_from_pdfium_cases c)
    as [[Hc ->]|[[Hc ->]|[[Hc ->]|[[Hc ->]|[Hn ->]]]]];
    try (left; split; [rewrite Hc; cbv; tauto | eexists; split; [reflexivity | simpl; auto]]).
  right; split; [assumption | reflexivity].
Qed.

(** ========================================================================= *)
(** * Further properties of the embedded code *)

Ltac unfold_field_codes :=
  cbv [PdfFormFieldType_from_pdfium PdfFormFieldType_as_pdfium FORMFIELD_CODES
       FPDF_FORMFIELD_UNKNOWN FPDF_FORMFIELD_PUSHBUTTON FPDF_FORMFIELD_CHECKBOX
       FPDF_FORMFIELD_RADIOBUTTON FPDF_FORMFIELD_COMBOBOX FPDF_FORMFIELD_LISTBOX
       FPDF_FORMFIELD_TEXTFIELD FPDF_FORMFIELD_SIGNATURE] in *.

(** Case split on one run of [PdfForm::from_pdfium]: null handle, pending
    error, then the decoded form type. *)
Ltac form_cases b doc addr :=
  run_M;
  destruct (Z.eqb_spec (FPDFDOC_InitFormFillEnvironment b doc addr) 0) as [Hz|Hnz]; simpl;
  [| destruct (get_pdfium_last_error b) as [e|] eqn:He; simpl;
     [| destruct (PdfFormType_from_pdfium_cases (as_u32 (FPDF_GetFormType b doc)))
          as [[Hc Hd]|[[Hc Hd]|[[Hc Hd]|[[Hc Hd]|[Hc Hd]]]]]; rewrite Hd; simpl]].

(** [PdfFormFieldType::from_pdfium] returns [Ok t] exactly for the code
    [t.as_pdfium()]; every code outside the eight constants gives
    [Err(UnknownFormFieldType)], and no other error is ever returned. *)
Theorem PdfFormFieldType_from_pdfium_decodes :
  (forall c t, PdfFormFieldType_from_pdfium c = Ok t <-> PdfFormFieldType_as_pdfium t = c) /\
  (forall c e, PdfFormFieldType_from_pdfium c = Err e <->
               (~ In c FORMFIELD_CODES /\ e = UnknownFormFieldType)).
Proof.
  split.
  - intros c t; split.
    + unfold_field_codes. intro H. split_zeqb; subst; try discriminate;
        injection H as <-; reflexivity.
    + intros <-. destruct t; reflexivity.
  - intros c e; split.
    + unfold_field_codes. intro H. split_zeqb; subst; try discriminate.
      injection H as <-. split; [simpl; intuition lia | reflexivity].
    + intros [Hn ->]. unfold_field_codes. split_zeqb; subst; try reflexivity.
      all: exfalso; apply Hn; simpl; tauto.
Qed.


(** One run of [PdfForm::from_pdfium], by case. *)
Lemma PdfForm_from_pdfium_run (doc : Z) (b : PdfiumLibraryBindings) (addr : Z)
  (tr : list Event) :
  PdfForm_from_pdfium doc b addr tr =
    let h := FPDFDOC_InitFormFillEnvironment b doc addr in
    if h =? 0 then
      (Done None, tr ++ [EvAllocFormFillInfo addr; EvInitFormFill doc addr h;
                         EvFreeFormFillInfo addr])
    else match get_pdfium_last_error b with
         | Some _ =>
             (Done None, tr ++ [EvAllocFormFillInfo addr; EvInitFormFill doc addr h;
                                EvGetLastError; EvFreeFormFillInfo addr])
         | None =>
             let pre := tr ++ [EvAllocFormFillInfo addr; EvInitFormFill doc addr h;
                               EvGetLastError; EvGetFormType doc] in
             match PdfFormType_from_pdfium (as_u32 (FPDF_GetFormType b doc)) with
             | Ok FT_None => (Done None, pre ++ [EvExitFormFill h; EvFreeFormFillInfo addr])
             | Ok _ => (Done (Some {| form_handle := h; document_handle := doc;
                                      form_fill_info := addr; bindings := b |}), pre)
             | Err _ => (Panicked, pre ++ [EvExitFormFill h; EvFreeFormFillInfo addr])
             end
         end.
Proof.
  run_M. cbv zeta.
  destruct (FPDFDOC_InitFormFillEnvironment b doc addr =? 0); simpl;
    [repeat rewrite <- app_assoc; reflexivity|].
  destruct (get_pdfium_last_error b); simpl;
    [repeat rewrite <- app_assoc; reflexivity|].
  destruct (PdfFormType_from_pdfium (as_u32 (FPDF_GetFormType b doc))) as [[]|]; simpl;
    repeat rewrite <- app_assoc; reflexivity.
Qed.

Ltac form_run b doc addr :=
  rewrite ?PdfForm_from_pdfium_run; cbv zeta;
  remember (FPDFDOC_InitFormFillEnvironment b doc addr) as h eqn:Eh;
  remember (as_u32 (FPDF_GetFormType b doc)) as c eqn:Ec;
  destruct (Z.eqb_spec h 0) as [Hz|Hnz];
  [| destruct (get_pdfium_last_error b) as [e|] eqn:He;
     [| destruct (PdfFormType_from_pdfium_cases c)
          as [[Hc Hd]|[[Hc Hd]|[[Hc Hd]|[[Hc Hd]|[Hc Hd]]]]]; rewrite Hd]].

Ltac form_codes := cbv [FORMTYPE_CODES FORMTYPE_NONE FORMTYPE_ACRO_FORM FORMTYPE_XFA_FULL
                        FORMTYPE_XFA_FOREGROUND In] in *.

(** The outcome of [PdfForm::from_pdfium]: it returns [Some] exactly when the
    handle is non-null, no error is pending and the type code is Acrobat or
    XFA; it panics exactly when the handle is non-null, no error is pending
    and the type code is not recognised; otherwise it returns [None]. *)
Theorem PdfForm_from_pdfium_outcome :
  forall doc b addr tr,
    ((exists form, fst (PdfForm_from_pdfium doc b addr tr) = Done (Some form)) <->
       (FPDFDOC_InitFormFillEnvironment b doc addr <> 0 /\ get_pdfium_last_error b = None /\
        In (as_u32 (FPDF_GetFormType b doc))
           [FORMTYPE_ACRO_FORM; FORMTYPE_XFA_FULL; FORMTYPE_XFA_FOREGROUND])) /\
    (fst (PdfForm_from_pdfium doc b addr tr) = Panicked <->
       (FPDFDOC_InitFormFillEnvironment b doc addr <> 0 /\ get_pdfium_last_error b = None /\
        ~ In (as_u32 (FPDF_GetFormType b doc)) FORMTYPE_CODES)) /\
    (fst (PdfForm_from_pdfium doc b addr tr) = Done None <->
       (FPDFDOC_InitFormFillEnvironment b doc addr = 0 \/ get_pdfium_last_error b <> None \/
        as_u32 (FPDF_GetFormType b doc) = FORMTYPE_NONE)).
Proof.
  intros doc b addr tr.
  form_run b doc addr; simpl; form_codes.
  all: repeat split; intros;
    repeat match goal with
           | H : _ /\ _ |- _ => destruct H
           | H : exists _, _ |- _ => destruct H
           end;
    try discriminate; try congruence; try lia; eauto.
  all: try (eexists; reflexivity).
  all: try (subst c; tauto).
  all: try (subst c; intuition lia).
  all: try (right; left; discriminate).
Qed.

(** Over a caller's whole use of the form environment ([from_pdfium], then
    dropping whatever it returned): the environment is initialised exactly
    once, the pinned block is freed exactly once, the last error is queried
    only when the handle is non-null, and [FPDFDOC_ExitFormFillEnvironment]
    is called on the handle once when the handle is non-null with no pending
    error, and never otherwise. *)
Theorem open_and_drop_form_release_counts :
  forall doc b addr,
    let tr := snd (open_and_drop_form doc b addr []) in
    let h := FPDFDOC_InitFormFillEnvironment b doc addr in
    init_count tr = 1%nat /\
    free_count addr tr = 1%nat /\
    (In EvGetLastError tr <-> h <> 0) /\
    exit_count h tr =
      (if h =? 0 then 0%nat
       else match get_pdfium_last_error b with None => 1%nat | Some _ => 0%nat end).
Proof.
  intros doc b addr. cbv zeta.
  cbv [open_and_drop_form bind].
  form_run b doc addr; simpl; cbv [drop_PdfForm call_ExitFormFillEnvironment
    drop_form_fill_info bind emit ret]; simpl.
  all: unfold exit_count, free_count, init_count; simpl.
  all: rewrite ?Z.eqb_refl; simpl.
  all: try (destruct (Z.eqb_spec h 0); [contradiction|]).
  all: repeat split; intros; try reflexivity; try congruence;
    intuition (try discriminate; try congruence).
Qed.

(** When [FPDFDOC_InitFormFillEnvironment] returns null, [from_pdfium]
    returns [None] without querying the last error or the form type, and
    frees the pinned block before returning. *)
Theorem PdfForm_from_pdfium_null_handle :
  forall doc b addr tr,
    FPDFDOC_InitFormFillEnvironment b doc addr = 0 ->
    PdfForm_from_pdfium doc b addr tr =
      (Done None, tr ++ [EvAllocFormFillInfo addr; EvInitFormFill doc addr 0;
                         EvFreeFormFillInfo addr]).
Proof.
  intros doc b addr tr Hz.
  rewrite PdfForm_from_pdfium_run. cbv zeta. rewrite Hz. reflexivity.
Qed.

Lemma PdfForm_from_pdfium_null_handle_witness :
  PdfForm_from_pdfium 7 (test_engine 0 (Some FileError) 1) 512 [] =
    (Done None, [EvAllocFormFillInfo 512; EvInitFormFill 7 512 0;
                 EvFreeFormFillInfo 512]).
Proof.
  exact (PdfForm_from_pdfium_null_handle 7 (test_engine 0 (Some FileError) 1) 512 []
           eq_refl).
Defined.

(** A form returned by [from_pdfium] holds the handle the engine returned,
    the document it was asked for, the bindings, and the address of the
    pinned block that was passed to [FPDFDOC_InitFormFillEnvironment]; at
    that point the handle has not been released and the block not freed. *)
Theorem PdfForm_from_pdfium_returned_form :
  forall doc b addr tr form,
    fst (PdfForm_from_pdfium doc b addr tr) = Done (Some form) ->
    form_handle form = FPDFDOC_InitFormFillEnvironment b doc addr /\
    document_handle form = doc /\
    form_fill_info form = addr /\
    bindings form = b /\
    exists pre,
      snd (PdfForm_from_pdfium doc b addr tr) =
        tr ++ pre /\
      In (EvInitFormFill doc (form_fill_info form) (form_handle form)) pre /\
      exit_count (form_handle form) pre = 0%nat /\
      free_count (form_fill_info form) pre = 0%nat.
Proof.
  intros doc b addr tr form H.
  revert H. form_run b doc addr; simpl; intro H; try discriminate.
  all: injection H as <-; simpl.
  all: repeat split; try (subst; reflexivity).
  all: eexists; split; [reflexivity|].
  all: unfold exit_count, free_count; simpl; subst h.
  all: split; [tauto|].
  all: destruct (Z.eqb_spec (FPDFDOC_InitFormFillEnvironment b doc addr) addr);
       destruct (Z.eqb_spec (FPDFDOC_InitFormFillEnvironment b doc addr) 0); simpl;
       try contradiction; rewrite ?Z.eqb_refl; simpl; lia.
Qed.

Lemma PdfForm_from_pdfium_returned_form_witness :
  let form := {| form_handle := 4096; document_handle := 7; form_fill_info := 512;
                 bindings := test_engine 4096 None 1 |} in
  form_handle form = FPDFDOC_InitFormFillEnvironment (test_engine 4096 None 1) 7 512 /\
  document_handle form = 7 /\
  form_fill_info form = 512 /\
  bindings form = test_engine 4096 None 1 /\
  exists pre,
    snd (PdfForm_from_pdfium 7 (test_engine 4096 None 1) 512 []) = [] ++ pre /\
    In (EvInitFormFill 7 (form_fill_info form) (form_handle form)) pre /\
    exit_count (form_handle form) pre = 0%nat /\
    free_count (form_fill_info form) pre = 0%nat.
Proof.
  exact (PdfForm_from_pdfium_returned_form 7 (test_engine 4096 None 1) 512 []
           {| form_handle := 4096; document_handle := 7; form_fill_info := 512;
              bindings := test_engine 4096 None 1 |} eq_refl).
Defined.

(** When the engine reports an unrecognised form type code for an otherwise
    usable environment, [form_type]'s [unwrap] panics inside [from_pdfium];
    unwinding drops the half-built [PdfForm], so the handle is still passed
    to [FPDFDOC_ExitFormFillEnvironment] before the pinned block is freed. *)
Theorem PdfForm_from_pdfium_unwinds_on_unknown_type :
  forall doc b addr tr,
    FPDFDOC_InitFormFillEnvironment b doc addr <> 0 ->
    get_pdfium_last_error b = None ->
    ~ In (as_u32 (FPDF_GetFormType b doc)) FORMTYPE_CODES ->
    PdfForm_from_pdfium doc b addr tr =
      (Panicked,
       tr ++ [EvAllocFormFillInfo addr;
              EvInitFormFill doc addr (FPDFDOC_InitFormFillEnvironment b doc addr);
              EvGetLastError; EvGetFormType doc;
              EvExitFormFill (FPDFDOC_InitFormFillEnvironment b doc addr);
              EvFreeFormFillInfo addr]).
Proof.
  intros doc b addr tr Hh0 He0 Hn.
  form_run b doc addr; try contradiction; try discriminate.
  all: try (exfalso; apply Hn; rewrite Hc; form_codes; tauto).
  subst h. rewrite <- app_assoc. reflexivity.
Qed.

Lemma PdfForm_from_pdfium_unwinds_on_unknown_type_witness :
  PdfForm_from_pdfium 7 (test_engine 4096 None (-1)) 512 [] =
    (Panicked, [EvAllocFormFillInfo 512; EvInitFormFill 7 512 4096; EvGetLastError;
                EvGetFormType 7; EvExitFormFill 4096; EvFreeFormFillInfo 512]).
Proof.
  apply (PdfForm_from_pdfium_unwinds_on_unknown_type 7 (test_engine 4096 None (-1)) 512 []).
  - discriminate.
  - reflexivity.
  - vm_compute. intuition discriminate.
Defined.

(** [PdfActionLocalDestination::destination] makes exactly one
    [FPDFAction_GetDest] call, with the action's own document and action
    handles, and queries the last error after it exactly when that call
    returned null; it makes no other native call. *)
Theorem destination_native_calls :
  forall (a : PdfActionLocalDestination) (tr : list Event),
    exists rest,
      snd (destination a tr) = tr ++ EvGetDest (document a) (action_handle a) :: rest /\
      (rest = [EvGetLastError] <->
         FPDFAction_GetDest (action_bindings a) (document a) (action_handle a) = 0) /\
      (rest = [] <->
         FPDFAction_GetDest (action_bindings a) (document a) (action_handle a) <> 0).
Proof.
  intros a tr.
  run_M.
  destruct (Z.eqb_spec (FPDFAction_GetDest (action_bindings a) (document a) (action_handle a)) 0)
    as [Hz|Hnz].
  - destruct (get_pdfium_last_error (action_bindings a));
      exists [EvGetLastError]; simpl; rewrite <- app_assoc;
      repeat split; intros; try reflexivity; try assumption; try contradiction; discriminate.
  - exists []; simpl; repeat split; intros; try reflexivity; try assumption;
      try contradiction; discriminate.
Qed.
